(** * Bootstrap lock register and task-status query of repository-service-tuf-api

    Shallow embedding of [repository_service_tuf_api/__init__.py]
    (the configuration built at import, [pre_lock_bootstrap],
    [release_bootstrap_lock], [bootstrap_state], [get_task_id],
    [repository_metadata]) and of the status endpoint of
    [tuf_repository_service_api/api/tasks.py], with the properties of the
    bootstrap register encoding proved about them. *)

From Stdlib Require Import ZArith Lia Ascii.
From stdpp Require Import base strings list gmap pretty.

(** ** Python values and the pieces of [str] the module uses *)

(** The values a settings field can hold. *)
Inductive value : Type :=
  | PyNone
  | PyStr (s : string)
  | PyInt (z : Z)
  | PyBool (b : bool).

(** [s.split(sep)] for a one-character separator: every occurrence of the
    separator cuts, so the result has one more component than there are
    separators and [""] splits into [[""]]. *)
Fixpoint split (sep : ascii) (s : string) : list string :=
  match s with
  | EmptyString => [EmptyString]
  | String c rest =>
      if Ascii.eqb c sep then EmptyString :: split sep rest
      else match split sep rest with
           | [] => [String c EmptyString]
           | hd :: tl => String c hd :: tl
           end
  end.

(** The delimiter of the register encoding. *)
Definition DASH : ascii := "-"%char.

(** [sep not in s]. *)
Fixpoint no_sep (sep : ascii) (s : string) : bool :=
  match s with
  | EmptyString => true
  | String c rest => negb (Ascii.eqb c sep) && no_sep sep rest
  end.

(** ** Exceptions, the interpreter state and the monad that threads them *)

Inductive exn : Type :=
  | AttributeError
  | IndexError.

Inductive outcome (A : Type) : Type :=
  | Returns (a : A)
  | Raises (e : exn).
Arguments Returns {A} a.
Arguments Raises {A} e.

(** What the module's functions observe and change: the settings of the
    repository, one hash of fields kept in Redis (the external store of
    the register, key [BOOTSTRAP]), the result backend of Celery (state
    and result by task id) and the records given to [logging]. *)
Inductive TaskStatus : Type :=
  | PENDING
  | RECEIVED
  | PRE_RUN
  | RUNNING
  | FAILURE
  | SUCCESS.

Record World : Type := mkWorld {
  settings_repository : gmap string value;
  celery_results : gmap string (TaskStatus * option string);
  log_records : list string
}.

Definition Py (A : Type) : Type := World -> outcome A * World.

Definition ret {A} (a : A) : Py A := fun w => (Returns a, w).

Definition raise {A} (e : exn) : Py A := fun w => (Raises e, w).

Definition bind {A B} (m : Py A) (k : A -> Py B) : Py B :=
  fun w =>
    match m w with
    | (Returns a, w') => k a w'
    | (Raises e, w') => (Raises e, w')
    end.

Notation "x <- m ;; k" := (bind m (fun x => k))
  (at level 100, m at next level, right associativity).
Notation "m ;;; k" := (bind m (fun _ => k))
  (at level 100, right associativity).

(** [l[i]] for a non-negative index. *)
Definition index {A} (l : list A) (i : nat) : Py A :=
  match l !! i with
  | Some x => ret x
  | None => raise IndexError
  end.

(** ** The settings store (Dynaconf over Redis)

    The store is an external collaborator.  The world keeps, for every
    field of the Redis hash, the value a load of the hash gives.  The
    module uses four operations of it: a snapshot read, a write of a
    mapping into the hash, a reload and a fresh read of one field. *)

(** Python's truth value: [None], [""], [0] and [False] are false. *)
Definition truthy (v : value) : bool :=
  match v with
  | PyNone => false
  | PyStr s => negb (String.eqb s "")
  | PyInt z => negb (Z.eqb z 0)
  | PyBool b => b
  end.

(** The value of a decimal digit, by its character code. *)
Definition digit_of (c : ascii) : option Z :=
  let code := Z.of_nat (nat_of_ascii c) in
  if (48 <=? code)%Z && (code <=? 57)%Z then Some (code - 48)%Z else None.

Fixpoint digits_value (acc : Z) (s : string) : option Z :=
  match s with
  | EmptyString => Some acc
  | String c rest =>
      match digit_of c with
      | Some d => digits_value (10 * acc + d)%Z rest
      | None => None
      end
  end.

(** A TOML decimal integer without sign: digits, no leading zero. *)
Definition toml_unsigned (s : string) : option Z :=
  match s with
  | EmptyString => None
  | String "0"%char EmptyString => Some 0%Z
  | String "0"%char _ => None
  | _ => digits_value 0 s
  end.

(** A TOML decimal integer, with its optional sign. *)
Definition toml_integer (s : string) : option Z :=
  match s with
  | String "-"%char body => Z.opp <$> toml_unsigned body
  | String "+"%char body => toml_unsigned body
  | _ => toml_unsigned s
  end.

(** The text of a one-line quoted string up to its closing quote, which
    must end it; a basic string (double quote, code 34) with a backslash
    (code 92) in it is not read here. *)
Fixpoint toml_until_quote (q : ascii) (s : string) : option string :=
  match s with
  | EmptyString => None
  | String c rest =>
      if Ascii.eqb c q then
        match rest with EmptyString => Some EmptyString | _ => None end
      else if Ascii.eqb c "010"%char
              || (Ascii.eqb q "034"%char && Ascii.eqb c "092"%char)
      then None
      else String c <$> toml_until_quote q rest
  end.

Definition toml_quoted (s : string) : option string :=
  match s with
  | String q body =>
      if Ascii.eqb q "039"%char || Ascii.eqb q "034"%char
      then toml_until_quote q body
      else None
  | EmptyString => None
  end.

(** How Dynaconf reads the bare text of a field: as the TOML value it
    spells, and as the text itself when it spells none.  The values read
    here are the booleans, the decimal integers and the one-line quoted
    strings; text of any other kind is kept as it is, which is what
    happens to text that is no TOML value at all, such as a word with a
    dash in it.  The other forms of TOML (floats, dates, arrays, tables)
    and text that starts with a marker of Dynaconf are not read here, and
    no property below depends on how such text comes back. *)
Definition parse_with_toml (s : string) : value :=
  if String.eqb s "true" then PyBool true
  else if String.eqb s "false" then PyBool false
  else match toml_integer s with
       | Some z => PyInt z
       | None =>
           match toml_quoted s with
           | Some inner => PyStr inner
           | None => PyStr s
           end
       end.

(** What a value written to the hash is read back as.  [None], integers
    and booleans are written with a marker of their type and come back
    as they were; a string is written as its bare text, which a read
    takes through [parse_with_toml]. *)
Definition read_back (v : value) : value :=
  match v with
  | PyStr s => parse_with_toml s
  | PyNone | PyInt _ | PyBool _ => v
  end.

Definition as_dict : Py (gmap string value) :=
  fun w => (Returns (settings_repository w), w).

(** [redis_loader.write(settings_repository, data)]: every field of the
    mapping is written, the fields it does not name stay. *)
Definition redis_loader_write (data : gmap string value) : Py unit :=
  fun w =>
    (Returns tt,
     mkWorld ((read_back <$> data) ∪ settings_repository w)
       (celery_results w) (log_records w)).

Definition reload : Py unit := ret tt.

(** [settings_repository.get_fresh(key)]: the field is dropped and loaded
    again, and the load keeps a value only when it is true; a missing
    field and a false value both give [None]. *)
Definition get_fresh (key : string) : Py value :=
  fun w =>
    (Returns
       (match settings_repository w !! key with
        | Some v => if truthy v then v else PyNone
        | None => PyNone
        end),
     w).

(** [logging.debug(msg)]. *)
Definition logging_debug (msg : string) : Py unit :=
  fun w =>
    (Returns tt,
     mkWorld (settings_repository w) (celery_results w) (log_records w ++ [msg])).

(** ** [BootstrapState] *)

Record BootstrapState : Type := mkBootstrapState {
  bootstrap : bool;
  state : option string;
  task_id : option string
}.

Definition set_bootstrap (v : bool) (b : BootstrapState) : BootstrapState :=
  mkBootstrapState v (state b) (task_id b).

Definition set_state (v : option string) (b : BootstrapState) : BootstrapState :=
  mkBootstrapState (bootstrap b) v (task_id b).

Definition set_task_id (v : option string) (b : BootstrapState) : BootstrapState :=
  mkBootstrapState (bootstrap b) (state b) v.

(** ** The writers of the register *)

Definition BOOTSTRAP : string := "BOOTSTRAP".

(** [pre_lock_bootstrap(task_id)]: the lock is stored as [pre-<task_id>]. *)
Definition pre_lock_bootstrap (task : string) : Py unit :=
  settings_data <- as_dict ;;
  let settings_data := <[BOOTSTRAP := PyStr ("pre-" +:+ task)]> settings_data in
  redis_loader_write settings_data.

(** [release_bootstrap_lock()]: the field goes back to [None]. *)
Definition release_bootstrap_lock : Py unit :=
  settings_data <- as_dict ;;
  let settings_data := <[BOOTSTRAP := PyNone]> settings_data in
  redis_loader_write settings_data.

(** ** The reader of the register *)

(** [bootstrap_state()].  The result is [Some b] when the function returns
    the [BootstrapState] [b], and [None] when it runs off its end, which in
    Python returns [None].  [split] on a value that is not a [str] raises
    [AttributeError]. *)
Definition bootstrap_state : Py (option BootstrapState) :=
  reload ;;;
  bootstrap <- get_fresh BOOTSTRAP ;;
  let bootstrap_state := mkBootstrapState false None None in
  match bootstrap with
  | PyNone => ret (Some bootstrap_state)
  | PyStr s =>
      if Nat.eqb (length (split DASH s)) 1 then
        let bootstrap_state := set_bootstrap true bootstrap_state in
        let bootstrap_state := set_state (Some "finished") bootstrap_state in
        let bootstrap_state := set_task_id (Some s) bootstrap_state in
        ret (Some bootstrap_state)
      else if Nat.eqb (length (split DASH s)) 2 then
        let bootstrap_state := set_bootstrap false bootstrap_state in
        phase <- index (split DASH s) 0 ;;
        let bootstrap_state := set_state (Some phase) bootstrap_state in
        tid <- index (split DASH s) 1 ;;
        let bootstrap_state := set_task_id (Some tid) bootstrap_state in
        ret (Some bootstrap_state)
      else ret None
  | PyInt _ | PyBool _ => raise AttributeError
  end.

(** ** Task identifiers *)

(** [uuid.uuid4()] on the 16 bytes [os.urandom] gave, read as a big-endian
    integer: the variant and version bits are forced, the other 122 bits
    are the random ones. *)
Definition uuid4 (urandom : Z) : Z :=
  let int := (urandom mod 2 ^ 128)%Z in
  let int := Z.land int (Z.lnot (Z.shiftl 0xc000 48)) in
  let int := Z.lor int (Z.shiftl 0x8000 48) in
  let int := Z.land int (Z.lnot (Z.shiftl 0xf000 64)) in
  let int := Z.lor int (Z.shiftl 4 76) in
  int.

Definition hex_digit (d : Z) : ascii :=
  match d with
  | 0 => "0" | 1 => "1" | 2 => "2" | 3 => "3"
  | 4 => "4" | 5 => "5" | 6 => "6" | 7 => "7"
  | 8 => "8" | 9 => "9" | 10 => "a" | 11 => "b"
  | 12 => "c" | 13 => "d" | 14 => "e" | _ => "f"
  end%Z%char.

(** The [n] low-order hexadecimal digits of [z], most significant first. *)
Fixpoint hex_digits (n : nat) (z : Z) : string :=
  match n with
  | O => EmptyString
  | S n' =>
      hex_digits n' (z / 16)%Z +:+ String (hex_digit (z mod 16)%Z) EmptyString
  end.

(** ['%032x' % z] for [0 <= z]: the hexadecimal digits of [z], padded
    with zeros on the left to 32 characters. *)
Definition format_032x (z : Z) : string :=
  hex_digits (Nat.max 32 (Z.to_nat (Z.log2 z / 4 + 1)%Z)) z.

(** [UUID.hex]. *)
Definition hex (uuid : Z) : string := format_032x uuid.

(** [get_task_id()]; the argument is what [os.urandom(16)] returns in
    this call. *)
Definition get_task_id (urandom : Z) : string := hex (uuid4 urandom).

(** [repository_metadata(action, payload)], the Celery task stub. *)
Definition repository_metadata (action : string) (payload : value) : Py bool :=
  logging_debug ("New tasks action submitted " +:+ action) ;;;
  ret true.

(** ** The register encoding *)

(** What the register means: no bootstrap, a bootstrap in a named phase
    owned by a task, or a finished bootstrap. *)
Inductive BootstrapRecord : Type :=
  | Absent
  | InProgress (phase : string) (tid : string)
  | Finished (tid : string).

(** The three shapes of the [BOOTSTRAP] field: [None], [<phase>-<task_id>]
    (as [pre_lock_bootstrap] writes for the phase [pre]) and [<task_id>]. *)
Definition encode (r : BootstrapRecord) : value :=
  match r with
  | Absent => PyNone
  | InProgress phase tid => PyStr (phase +:+ "-" +:+ tid)
  | Finished tid => PyStr tid
  end.

(** An encoding is valid when no component contains the delimiter and
    the finished form is not the empty value, which means absent. *)
Definition valid (r : BootstrapRecord) : bool :=
  match r with
  | Absent => true
  | InProgress phase tid => no_sep DASH phase && no_sep DASH tid
  | Finished tid => negb (String.eqb tid "") && no_sep DASH tid
  end.

(** The view of a record that callers are given. *)
Definition view (r : BootstrapRecord) : BootstrapState :=
  match r with
  | Absent => mkBootstrapState false None None
  | InProgress phase tid => mkBootstrapState false (Some phase) (Some tid)
  | Finished tid => mkBootstrapState true (Some "finished") (Some tid)
  end.

(** The view of a register that was never written or was released. *)
Definition ABSENT : BootstrapState := mkBootstrapState false None None.

(** The register of a world. *)
Definition register (w : World) : value :=
  default PyNone (settings_repository w !! BOOTSTRAP).

(** The register as [get_fresh] gives it. *)
Definition fresh_register (w : World) : value :=
  if truthy (register w) then register w else PyNone.

(** A world whose settings hold only the register. *)
Definition world_of (v : value) : World :=
  mkWorld {[ BOOTSTRAP := v ]} ∅ [].

(** ** Task status *)

Module tasks.

Record Response : Type := mkResponse {
  task_state : TaskStatus;
  task_result : option string
}.

(** Modelled from the spec: [tasks.get] of [tuf_repository_service_api],
    which the endpoint calls and which is not among the sources.  With no
    id the answer is [PENDING] and nothing else; with an id the status
    store of the execution engine is asked, where an id it does not know
    reads as [PENDING]. *)
Definition get (task_id : option string) : Py Response :=
  fun w =>
    match task_id with
    | None => (Returns (mkResponse PENDING None), w)
    | Some id =>
        match celery_results w !! id with
        | Some (st, res) => (Returns (mkResponse st res), w)
        | None => (Returns (mkResponse PENDING None), w)
        end
    end.

End tasks.

Module api_tasks.

Record GetParameters : Type := mkGetParameters {
  task_id : option string
}.

(** The handler of [GET /task/]; the token check is done before it is
    called. *)
Definition get (params : GetParameters) : Py tasks.Response :=
  tasks.get (task_id params).

End api_tasks.

(** ** The configuration the module builds when it is imported *)

(** [sep.join(parts)] for a one-character separator. *)
Fixpoint join (sep : ascii) (parts : list string) : string :=
  match parts with
  | [] => EmptyString
  | [x] => x
  | x :: rest => x +:+ String sep (join sep rest)
  end.

(** [sep in s] for a separator of several characters. *)
Fixpoint contains (sep : string) (s : string) : bool :=
  match s with
  | EmptyString => String.prefix sep EmptyString
  | String c rest => String.prefix sep s || contains sep rest
  end.

(** [s.split(sep)] for a separator of one or more characters: the
    occurrences are found from the left and do not overlap.  [skip] counts
    the characters of an occurrence that are still to be passed over.
    (Python refuses the empty separator; the module never passes it.) *)
Fixpoint split_str_from (sep : string) (skip : nat) (s : string) : list string :=
  match s with
  | EmptyString => [EmptyString]
  | String c rest =>
      match skip with
      | S k => split_str_from sep k rest
      | O =>
          if String.prefix sep s
          then EmptyString :: split_str_from sep (String.length sep - 1) rest
          else match split_str_from sep 0 rest with
               | [] => [String c EmptyString]
               | hd :: tl => String c hd :: tl
               end
      end
  end.

Definition split_str (sep : string) (s : string) : list string :=
  split_str_from sep 0 s.

(** [f"{v}"]. *)
Definition format_value (v : value) : string :=
  match v with
  | PyNone => "None"
  | PyStr s => s
  | PyInt z => pretty z
  | PyBool true => "True"
  | PyBool false => "False"
  end.

(** [settings.NAME]: a name that is not set raises [AttributeError]. *)
Definition getattr (settings : gmap string value) (name : string) : outcome value :=
  match settings !! name with
  | Some v => Returns v
  | None => Raises AttributeError
  end.

(** [settings.get(name, default)]. *)
Definition settings_get (settings : gmap string value) (name : string)
    (dflt : value) : value :=
  default dflt (settings !! name).

(** What the import leaves configured: the Redis connection of
    [settings_repository] and the broker and result backend of Celery. *)
Record Config : Type := mkConfig {
  redis_host : string;
  redis_port : value;
  redis_db : value;
  decode_responses : bool;
  broker_url : value;
  result_backend : string
}.

(** The module-level statements that build [settings_repository] and
    configure [celery], in their order, from the [RSTUF_] settings. *)
Definition module_init (settings : gmap string value) : outcome Config :=
  match getattr settings "REDIS_SERVER" with
  | Raises e => Raises e
  | Returns (PyStr server) =>
      match split_str "redis://" server !! 1 with
      | None => Raises IndexError
      | Some host =>
          let port := settings_get settings "REDIS_SERVER_PORT" (PyInt 6379) in
          let db := settings_get settings "REDIS_SERVER_DB_REPO_SETTINGS" (PyInt 1) in
          match getattr settings "BROKER_SERVER" with
          | Raises e => Raises e
          | Returns broker =>
              Returns
                (mkConfig host port db true broker
                   (server
                    +:+ ":"
                    +:+ format_value
                          (settings_get settings "REDIS_SERVER_PORT" (PyInt 6379))
                    +:+ "/"
                    +:+ format_value
                          (settings_get settings "REDIS_SERVER_DB_RESULT" (PyInt 0))))
          end
      end
  | Returns _ => Raises AttributeError
  end.

(** The scheme that the import cuts off [REDIS_SERVER]. *)
Definition REDIS_SCHEME : string := "redis://".

(** ** Predicates the properties are stated with *)

Fixpoint string_forall (p : ascii -> bool) (s : string) : bool :=
  match s with
  | EmptyString => true
  | String c rest => p c && string_forall p rest
  end.

Definition is_hex_digit (c : ascii) : bool :=
  existsb (Ascii.eqb c) (String.list_ascii_of_string "0123456789abcdef").

(** Failing loudly on a register value: the call returns the absent view
    and has written a log record. *)
Definition fails_loudly (w : World) : Prop :=
  exists w', bootstrap_state w = (Returns (Some ABSENT), w')
             /\ log_records w' <> log_records w.

(** A register whose one-component values are read as finished. *)
Definition one_component_reads_finished (w : World) : Prop :=
  forall v, register w = PyStr v ->
            length (split DASH v) = 1 ->
            bootstrap_state w
            = (Returns (Some (mkBootstrapState true (Some "finished") (Some v))),
               w).


(** A register whose bootstrapped views have a null state. *)
Definition state_null_when_bootstrapped (w : World) : Prop :=
  forall b, fst (bootstrap_state w) = Returns (Some b) ->
            bootstrap b = true -> state b = None.

(** ** The model on the examples of the design *)

Example split_signing :
  split DASH "signing-abc123" = ["signing"; "abc123"].
Proof. reflexivity. Qed.

Example split_empty : split DASH "" = [""].
Proof. reflexivity. Qed.

Example split_three : split DASH "a--b" = ["a"; ""; "b"].
Proof. reflexivity. Qed.

Example get_task_id_zero :
  get_task_id 0 = "00000000000040008000000000000000".
Proof. vm_compute. reflexivity. Qed.

Example get_task_id_ones :
  get_task_id (2 ^ 128 - 1)%Z = "ffffffffffff4fffbfffffffffffffff".
Proof. vm_compute. reflexivity. Qed.

Example bootstrap_state_signing :
  fst (bootstrap_state (world_of (PyStr "signing-abc123")))
  = Returns (Some (mkBootstrapState false (Some "signing") (Some "abc123"))).
Proof. vm_compute. reflexivity. Qed.

Example split_str_redis :
  split_str "redis://" "redis://redis.example.org" = [""; "redis.example.org"].
Proof. reflexivity. Qed.

Example split_str_twice :
  split_str "ab" "xabyabz" = ["x"; "y"; "z"].
Proof. reflexivity. Qed.

Example split_str_overlap : split_str "aa" "aaa" = [""; "a"].
Proof. reflexivity. Qed.

Example module_init_defaults :
  module_init {[ "REDIS_SERVER" := PyStr "redis://redis";
                 "BROKER_SERVER" := PyStr "amqp://mq" ]}
  = Returns (mkConfig "redis" (PyInt 6379) (PyInt 1) true (PyStr "amqp://mq")
               "redis://redis:6379/0").
Proof. vm_compute. reflexivity. Qed.

Example parse_with_toml_integer : parse_with_toml "123" = PyInt 123.
Proof. reflexivity. Qed.

Example parse_with_toml_leading_zero : parse_with_toml "0123" = PyStr "0123".
Proof. reflexivity. Qed.

Example parse_with_toml_true : parse_with_toml "true" = PyBool true.
Proof. reflexivity. Qed.

Example parse_with_toml_quoted : parse_with_toml "'123'" = PyStr "123".
Proof. reflexivity. Qed.

Example parse_with_toml_word : parse_with_toml "signing-abc123" = PyStr "signing-abc123".
Proof. reflexivity. Qed.

(** A field that spells a number changes its type when a writer writes
    the snapshot back, and once more when its text was quoted. *)
Example write_twice :
  settings_repository
    (snd ((release_bootstrap_lock ;;; release_bootstrap_lock)
            (mkWorld {[ "X" := PyStr "'123'" ]} ∅ []))) !! "X"
  = Some (PyInt 123)
  /\ settings_repository
       (snd (release_bootstrap_lock
               (mkWorld {[ "X" := PyStr "'123'" ]} ∅ []))) !! "X"
     = Some (PyStr "123").
Proof. split; vm_compute; reflexivity. Qed.

Example bootstrap_state_zero :
  fst (bootstrap_state (world_of (PyInt 0))) = Returns (Some ABSENT).
Proof. vm_compute. reflexivity. Qed.

(** A task id that holds the delimiter does not survive the encoding. *)
Example pre_lock_with_delimiter :
  fst ((pre_lock_bootstrap "a-b" ;;; bootstrap_state) (world_of PyNone))
  = Returns None.
Proof. vm_compute. reflexivity. Qed.

Example bootstrap_state_not_str :
  fst (bootstrap_state (world_of (PyInt 7))) = Raises AttributeError.
Proof. vm_compute. reflexivity. Qed.

Example bootstrap_state_three :
  fst (bootstrap_state (world_of (PyStr "a-b-c"))) = Returns None.
Proof. vm_compute. reflexivity. Qed.

(** ** Facts about [split] *)

Section Split.

Variable sep : ascii.

Lemma split_not_nil (s : string) : split sep s <> [].
Proof.
  destruct s as [|c rest]; simpl; [discriminate|].
  destruct (Ascii.eqb c sep); [discriminate|].
  destruct (split sep rest); discriminate.
Qed.

(** A string without the separator is its own single component. *)
Lemma split_no_sep (s : string) :
  no_sep sep s = true -> split sep s = [s].
Proof.
  induction s as [|c rest IH]; simpl; [reflexivity|].
  intros H. apply andb_prop in H as [Hc Hrest].
  apply negb_true_iff in Hc. rewrite Hc, (IH Hrest). reflexivity.
Qed.

(** The first separator ends the first component. *)
Lemma split_app_sep (a b : string) :
  no_sep sep a = true ->
  split sep (a +:+ String sep b) = a :: split sep b.
Proof.
  induction a as [|c rest IH]; simpl; intros H.
  - rewrite Ascii.eqb_refl. reflexivity.
  - apply andb_prop in H as [Hc Hrest].
    apply negb_true_iff in Hc. rewrite Hc, (IH Hrest). reflexivity.
Qed.

(** One component means that the separator does not occur. *)
Lemma split_one_no_sep (s : string) :
  length (split sep s) = 1 -> no_sep sep s = true.
Proof.
  induction s as [|c rest IH]; simpl; [reflexivity|].
  destruct (Ascii.eqb c sep) eqn:Hc; simpl.
  - intros H. injection H as H.
    pose proof (split_not_nil rest) as Hn.
    destruct (split sep rest); [congruence | discriminate].
  - pose proof (split_not_nil rest) as Hn.
    destruct (split sep rest) as [|hd tl] eqn:Hs; [congruence|].
    simpl in *. intros H. rewrite (IH H). reflexivity.
Qed.

End Split.

(** ** How [bootstrap_state] runs on each shape of the register *)

Lemma get_fresh_register (w : World) :
  get_fresh BOOTSTRAP w = (Returns (fresh_register w), w).
Proof.
  unfold get_fresh, fresh_register, register.
  destruct (settings_repository w !! BOOTSTRAP); reflexivity.
Qed.

Lemma bootstrap_state_run (w : World) :
  bootstrap_state w
  = match fresh_register w with
    | PyNone => (Returns (Some ABSENT), w)
    | PyStr s =>
        if Nat.eqb (length (split DASH s)) 1 then
          (Returns (Some (mkBootstrapState true (Some "finished") (Some s))), w)
        else if Nat.eqb (length (split DASH s)) 2 then
          match split DASH s with
          | [p; t] =>
              (Returns (Some (mkBootstrapState false (Some p) (Some t))), w)
          | _ => (Raises IndexError, w)
          end
        else (Returns None, w)
    | PyInt _ | PyBool _ => (Raises AttributeError, w)
    end.
Proof.
  unfold bootstrap_state, bind, reload, ret. rewrite get_fresh_register.
  destruct (fresh_register w) as [|s|z|c]; try reflexivity.
  destruct (Nat.eqb (length (split DASH s)) 1); [reflexivity|].
  destruct (Nat.eqb_spec (length (split DASH s)) 2) as [E|_]; [|reflexivity].
  destruct (split DASH s) as [|p [|t [|? ?]]]; try discriminate E. reflexivity.
Qed.

Lemma fresh_register_str (w : World) (v : string) :
  register w = PyStr v -> v <> "" -> fresh_register w = PyStr v.
Proof.
  intros Hr Hv. unfold fresh_register. rewrite Hr. simpl.
  destruct (String.eqb_spec v ""); [contradiction | reflexivity].
Qed.

Lemma fresh_register_falsy (w : World) :
  truthy (register w) = false -> fresh_register w = PyNone.
Proof. intros H. unfold fresh_register. rewrite H. reflexivity. Qed.

(** What [get_fresh] can give: [None] for a false register, and the
    register itself otherwise. *)
Lemma fresh_register_cases (w : World) :
  (truthy (register w) = false /\ fresh_register w = PyNone)
  \/ (truthy (register w) = true /\ fresh_register w = register w).
Proof.
  unfold fresh_register. destruct (truthy (register w)); [right | left]; auto.
Qed.

Lemma split_empty_one : length (split DASH "") = 1.
Proof. reflexivity. Qed.

Lemma bootstrap_state_falsy (w : World) :
  truthy (register w) = false ->
  bootstrap_state w = (Returns (Some ABSENT), w).
Proof.
  intros H. rewrite bootstrap_state_run, (fresh_register_falsy w H). reflexivity.
Qed.

Lemma bootstrap_state_none (w : World) :
  register w = PyNone ->
  bootstrap_state w = (Returns (Some ABSENT), w).
Proof. intros H. apply bootstrap_state_falsy. rewrite H. reflexivity. Qed.

Lemma bootstrap_state_one (w : World) (v : string) :
  register w = PyStr v ->
  v <> "" ->
  length (split DASH v) = 1 ->
  bootstrap_state w
  = (Returns (Some (mkBootstrapState true (Some "finished") (Some v))), w).
Proof.
  intros H Hv H1.
  rewrite bootstrap_state_run, (fresh_register_str w v H Hv), H1. reflexivity.
Qed.

Lemma bootstrap_state_two (w : World) (v p t : string) :
  register w = PyStr v ->
  split DASH v = [p; t] ->
  bootstrap_state w
  = (Returns (Some (mkBootstrapState false (Some p) (Some t))), w).
Proof.
  intros H H2.
  assert (Hv : v <> "") by (intros ->; discriminate H2).
  rewrite bootstrap_state_run, (fresh_register_str w v H Hv), H2. reflexivity.
Qed.

Lemma bootstrap_state_more (w : World) (v : string) :
  register w = PyStr v ->
  2 < length (split DASH v) ->
  bootstrap_state w = (Returns None, w).
Proof.
  intros H Hn.
  assert (Hv : v <> "") by (intros ->; simpl in Hn; lia).
  rewrite bootstrap_state_run, (fresh_register_str w v H Hv).
  destruct (Nat.eqb_spec (length (split DASH v)) 1) as [E|_]; [lia|].
  destruct (Nat.eqb_spec (length (split DASH v)) 2) as [E|_]; [lia|].
  reflexivity.
Qed.

(** ** What the writers leave in the store *)

Lemma pre_lock_bootstrap_run (t : string) (w : World) :
  pre_lock_bootstrap t w
  = (Returns tt,
     mkWorld ((read_back
                 <$> <[BOOTSTRAP := PyStr ("pre-" +:+ t)]> (settings_repository w))
              ∪ settings_repository w)
       (celery_results w) (log_records w)).
Proof. reflexivity. Qed.

Lemma release_bootstrap_lock_run (w : World) :
  release_bootstrap_lock w
  = (Returns tt,
     mkWorld ((read_back <$> <[BOOTSTRAP := PyNone]> (settings_repository w))
              ∪ settings_repository w)
       (celery_results w) (log_records w)).
Proof. reflexivity. Qed.

(** A word that starts with [pre-] is no TOML value: it is read back as
    the string it is. *)
Lemma read_back_pre (t : string) :
  read_back (PyStr ("pre-" +:+ t)) = PyStr ("pre-" +:+ t).
Proof. reflexivity. Qed.

(** The field a writer sets holds what the set value is read back as. *)
Lemma written_field (v : value) (m : gmap string value) :
  ((read_back <$> <[BOOTSTRAP := v]> m) ∪ m) !! BOOTSTRAP = Some (read_back v).
Proof.
  rewrite lookup_union_l', lookup_fmap, lookup_insert_eq; [reflexivity|].
  rewrite lookup_fmap, lookup_insert_eq. eauto.
Qed.


Lemma stored_pre_lock_bootstrap (t : string) (w : World) :
  settings_repository (snd (pre_lock_bootstrap t w)) !! BOOTSTRAP
  = Some (PyStr ("pre-" +:+ t)).
Proof.
  rewrite pre_lock_bootstrap_run. cbn [snd settings_repository].
  rewrite written_field. reflexivity.
Qed.

Lemma stored_release_bootstrap_lock (w : World) :
  settings_repository (snd (release_bootstrap_lock w)) !! BOOTSTRAP
  = Some PyNone.
Proof.
  rewrite release_bootstrap_lock_run. cbn [snd settings_repository].
  rewrite written_field. reflexivity.
Qed.

Lemma register_pre_lock_bootstrap (t : string) (w : World) :
  register (snd (pre_lock_bootstrap t w)) = PyStr ("pre-" +:+ t).
Proof. unfold register. rewrite stored_pre_lock_bootstrap. reflexivity. Qed.

Lemma register_release_bootstrap_lock (w : World) :
  register (snd (release_bootstrap_lock w)) = PyNone.
Proof. unfold register. rewrite stored_release_bootstrap_lock. reflexivity. Qed.

Lemma register_world_of (v : value) : register (world_of v) = v.
Proof. unfold register, world_of. simpl. rewrite lookup_singleton_eq. reflexivity. Qed.

(** ** Task identifiers are 32 hexadecimal digits *)

Lemma string_forall_app (p : ascii -> bool) (a b : string) :
  string_forall p (a +:+ b) = string_forall p a && string_forall p b.
Proof.
  induction a as [|c rest IH]; simpl; [reflexivity|].
  rewrite IH, andb_assoc. reflexivity.
Qed.

Lemma string_length_app (a b : string) :
  String.length (a +:+ b) = String.length a + String.length b.
Proof. induction a as [|c rest IH]; simpl; [reflexivity | now rewrite IH]. Qed.

Lemma hex_digit_is_hex (d : Z) : is_hex_digit (hex_digit d) = true.
Proof.
  destruct d as [|p|p]; try reflexivity.
  do 4 (destruct p as [p|p|]; try reflexivity).
Qed.

Lemma hex_digits_length (n : nat) (z : Z) : String.length (hex_digits n z) = n.
Proof.
  revert z. induction n as [|n IH]; intros z; simpl; [reflexivity|].
  rewrite string_length_app, IH. simpl. lia.
Qed.

Lemma hex_digits_are_hex (n : nat) (z : Z) :
  string_forall is_hex_digit (hex_digits n z) = true.
Proof.
  revert z. induction n as [|n IH]; intros z; simpl; [reflexivity|].
  rewrite string_forall_app, IH. simpl. rewrite hex_digit_is_hex. reflexivity.
Qed.

(** No hexadecimal digit is the delimiter. *)
Lemma hex_no_sep (s : string) :
  string_forall is_hex_digit s = true -> no_sep DASH s = true.
Proof.
  induction s as [|c rest IH]; simpl; [reflexivity|].
  intros H. apply andb_prop in H as [Hc Hrest]. rewrite (IH Hrest), andb_true_r.
  destruct (Ascii.eqb_spec c DASH) as [->|_]; [discriminate Hc | reflexivity].
Qed.

Lemma testbit_above_128 (c n : Z) :
  (0 <= c < 2 ^ 128)%Z -> (128 <= n)%Z -> Z.testbit c n = false.
Proof.
  intros Hc Hn. rewrite <- (Z.mod_small c (2 ^ 128)) by exact Hc.
  apply Z.mod_pow2_bits_high. lia.
Qed.

(** The version and variant masks keep the value within 128 bits. *)
Lemma uuid4_range (urandom : Z) : (0 <= uuid4 urandom < 2 ^ 128)%Z.
Proof.
  assert (H : (uuid4 urandom mod 2 ^ 128 = uuid4 urandom)%Z).
  { apply Z.bits_inj'. intros n Hn.
    rewrite Z.testbit_mod_pow2 by lia.
    destruct (Z.ltb_spec n 128) as [Hlt|Hge]; [reflexivity|].
    simpl andb. symmetry. unfold uuid4. cbv zeta.
    repeat (rewrite Z.lor_spec || rewrite Z.land_spec).
    rewrite Z.mod_pow2_bits_high by lia.
    rewrite (testbit_above_128 (Z.shiftl 0x8000 48) n), (testbit_above_128 (Z.shiftl 4 76) n);
      try assumption; try (split; [discriminate | reflexivity]).
    reflexivity. }
  rewrite <- H. apply Z.mod_pos_bound. reflexivity.
Qed.

Lemma format_032x_128 (z : Z) :
  (0 <= z < 2 ^ 128)%Z -> format_032x z = hex_digits 32 z.
Proof.
  intros [H0 H1]. unfold format_032x. f_equal.
  apply Nat.max_l.
  assert (Z.log2 z < 128)%Z.
  { destruct (Z.eq_dec z 0%Z) as [->|Hz]; [reflexivity|].
    apply Z.log2_lt_pow2; lia. }
  pose proof (Z.log2_nonneg z).
  assert (Z.log2 z / 4 < 32)%Z by (apply Z.div_lt_upper_bound; lia).
  assert (0 <= Z.log2 z / 4)%Z by (apply Z.div_pos; lia).
  lia.
Qed.

Lemma get_task_id_digits (urandom : Z) :
  get_task_id urandom = hex_digits 32 (uuid4 urandom).
Proof. unfold get_task_id, hex. apply format_032x_128, uuid4_range. Qed.

Lemma split_pre (t : string) :
  no_sep DASH t = true -> split DASH ("pre-" +:+ t) = ["pre"; t].
Proof.
  intros H. change ("pre-" +:+ t) with ("pre" +:+ String DASH t).
  rewrite split_app_sep by reflexivity. rewrite (split_no_sep _ _ H). reflexivity.
Qed.

Lemma then_pre_lock_bootstrap {A} (t : string) (m : Py A) (w : World) :
  (pre_lock_bootstrap t ;;; m) w = m (snd (pre_lock_bootstrap t w)).
Proof. reflexivity. Qed.

Lemma then_release_bootstrap_lock {A} (m : Py A) (w : World) :
  (release_bootstrap_lock ;;; m) w = m (snd (release_bootstrap_lock w)).
Proof. reflexivity. Qed.

Lemma bootstrap_state_after_pre_lock (t : string) (w : World) :
  no_sep DASH t = true ->
  fst ((pre_lock_bootstrap t ;;; bootstrap_state) w)
  = Returns (Some (mkBootstrapState false (Some "pre") (Some t))).
Proof.
  intros H. rewrite then_pre_lock_bootstrap.
  erewrite bootstrap_state_two;
    [reflexivity | apply register_pre_lock_bootstrap | apply split_pre, H].
Qed.

(** Every way [bootstrap_state] can return a view. *)
Lemma bootstrap_state_returns (w : World) (b : BootstrapState) :
  fst (bootstrap_state w) = Returns (Some b) ->
  (truthy (register w) = false /\ b = ABSENT)
  \/ (exists v, register w = PyStr v /\ v <> "" /\ length (split DASH v) = 1
                /\ b = mkBootstrapState true (Some "finished") (Some v))
  \/ (exists v p t, register w = PyStr v /\ split DASH v = [p; t]
                    /\ b = mkBootstrapState false (Some p) (Some t)).
Proof.
  rewrite bootstrap_state_run.
  destruct (fresh_register_cases w) as [[Hf ->] | [Ht ->]].
  - intros [= <-]. left. split; [exact Hf | reflexivity].
  - destruct (register w) as [|v|z|c] eqn:Hr; simpl; intros H;
      try discriminate.
    assert (Hv : v <> "").
    { intros ->. discriminate Ht. }
    destruct (Nat.eqb_spec (length (split DASH v)) 1) as [E1|N1].
    + right; left. exists v. simpl in H. injection H as <-.
      split; [reflexivity | split; [exact Hv | split; [exact E1 | reflexivity]]].
    + destruct (Nat.eqb_spec (length (split DASH v)) 2) as [E2|N2].
      * right; right.
        destruct (split DASH v) as [|p [|t [|? ?]]] eqn:Hs; try discriminate E2.
        exists v, p, t. simpl in H. injection H as <-.
        split; [reflexivity | split; [exact Hs | reflexivity]].
      * discriminate H.
Qed.

(** The answer of [bootstrap_state] is a function of the register. *)
Lemma bootstrap_state_of_register (w1 w2 : World) :
  register w1 = register w2 ->
  fst (bootstrap_state w1) = fst (bootstrap_state w2).
Proof.
  intros E. rewrite !bootstrap_state_run. unfold fresh_register. rewrite E.
  destruct (if truthy (register w2) then register w2 else PyNone) as [|v|z|c];
    try reflexivity.
  destruct (Nat.eqb (length (split DASH v)) 1); [reflexivity|].
  destruct (Nat.eqb (length (split DASH v)) 2); [|reflexivity].
  destruct (split DASH v) as [|a [|b [|c l]]]; reflexivity.
Qed.


(** ** The properties of the register *)

(** C1: round trip over the three shapes of the encoding.  For a record
    whose components do not contain the delimiter, [bootstrap_state] on
    a register holding its encoding returns the view of that record; in
    particular, after [pre_lock_bootstrap t] it returns state ["pre"] and
    task id [t]; and on a register holding [None] it returns the absent
    view (not bootstrapped, no state, no task id). *)
Theorem encode_decode_roundtrip (r : BootstrapRecord) (w : World) (t : string) :
  valid r = true ->
  no_sep DASH t = true ->
  register w = encode r ->
  bootstrap_state w = (Returns (Some (view r)), w)
  /\ fst ((pre_lock_bootstrap t ;;; bootstrap_state) w)
     = Returns (Some (view (InProgress "pre" t)))
  /\ (forall w0, register w0 = encode Absent ->
                 bootstrap_state w0 = (Returns (Some ABSENT), w0)).
Proof.
  intros Hv Ht Hr. split; [|split].
  - destruct r as [|p tid|tid]; simpl in *.
    + apply bootstrap_state_none, Hr.
    + apply andb_prop in Hv as [Hp Htid].
      apply (bootstrap_state_two w _ p tid Hr).
      change (p +:+ "-" +:+ tid) with (p +:+ String DASH tid).
      rewrite split_app_sep by exact Hp.
      rewrite (split_no_sep _ _ Htid). reflexivity.
    + apply andb_prop in Hv as [Hne Hv].
      apply (bootstrap_state_one w tid Hr).
      * intros ->. discriminate Hne.
      * rewrite (split_no_sep _ _ Hv). reflexivity.
  - apply bootstrap_state_after_pre_lock, Ht.
  - intros w0 H0. apply bootstrap_state_none, H0.
Qed.

Lemma encode_decode_roundtrip_witness :
  bootstrap_state (world_of (PyStr "signing-abc123"))
  = (Returns (Some (mkBootstrapState false (Some "signing") (Some "abc123"))),
     world_of (PyStr "signing-abc123"))
  /\ fst ((pre_lock_bootstrap "abc123" ;;; bootstrap_state)
            (world_of (PyStr "signing-abc123")))
     = Returns (Some (mkBootstrapState false (Some "pre") (Some "abc123"))).
Proof.
  destruct (encode_decode_roundtrip (InProgress "signing" "abc123")
              (world_of (PyStr "signing-abc123")) "abc123")
    as (H1 & H2 & _).
  - reflexivity.
  - reflexivity.
  - vm_compute. reflexivity.
  - split; [exact H1 | exact H2].
Defined.

(** C2, as stated, fails on the register ["a-b-c"]: the call returns
    Python's [None], not a view, and writes no log record. *)
Lemma fails_loudly_counterexample :
  bootstrap_state (world_of (PyStr "a-b-c"))
  = (Returns None, world_of (PyStr "a-b-c"))
  /\ ~ fails_loudly (world_of (PyStr "a-b-c")).
Proof.
  assert (H : bootstrap_state (world_of (PyStr "a-b-c"))
              = (Returns None, world_of (PyStr "a-b-c"))).
  { apply (bootstrap_state_more _ "a-b-c").
    - apply register_world_of.
    - vm_compute. lia. }
  split; [exact H|].
  intros (w' & Hw' & _). rewrite H in Hw'. discriminate Hw'.
Qed.

(** C2, amended: on a register value of more than two components
    [bootstrap_state] raises nothing and writes no log record, it leaves
    the settings and the log as they were, and it takes neither decoding
    branch: whatever view it returns is not a finished or an intermediate
    one. *)
Theorem more_components_no_misparse (w : World) (v : string) :
  register w = PyStr v ->
  2 < length (split DASH v) ->
  exists r, bootstrap_state w = (Returns r, w)
            /\ forall b, r = Some b ->
                 bootstrap b = false /\ state b = None /\ task_id b = None.
Proof.
  intros Hr Hn. exists None. split.
  - apply (bootstrap_state_more w v Hr Hn).
  - intros b Hb. discriminate Hb.
Qed.

Lemma more_components_no_misparse_witness :
  exists r, bootstrap_state (world_of (PyStr "a-b-c"))
            = (Returns r, world_of (PyStr "a-b-c"))
            /\ forall b, r = Some b ->
                 bootstrap b = false /\ state b = None /\ task_id b = None.
Proof.
  apply (more_components_no_misparse (world_of (PyStr "a-b-c")) "a-b-c").
  - vm_compute. reflexivity.
  - vm_compute. lia.
Defined.

(** C3, as stated, fails on the register [""]: it is a string of one
    component, and [get_fresh] gives [None] for it, so the view is the
    absent one, not the finished one. *)
Lemma one_component_reads_finished_counterexample :
  bootstrap_state (world_of (PyStr ""))
  = (Returns (Some ABSENT), world_of (PyStr ""))
  /\ ~ one_component_reads_finished (world_of (PyStr "")).
Proof.
  assert (H : bootstrap_state (world_of (PyStr ""))
              = (Returns (Some ABSENT), world_of (PyStr ""))).
  { apply bootstrap_state_falsy. rewrite register_world_of. reflexivity. }
  split; [exact H|].
  intros Hc. specialize (Hc "" (register_world_of _) eq_refl).
  rewrite H in Hc. discriminate Hc.
Qed.

(** C3, amended: on a register value that is not empty and has exactly
    one component (no delimiter) [bootstrap_state] returns the finished
    view: bootstrapped, state ["finished"], task id the whole value. *)
Theorem one_component_finished (w : World) (v : string) :
  register w = PyStr v ->
  v <> "" ->
  length (split DASH v) = 1 ->
  bootstrap_state w
  = (Returns (Some (mkBootstrapState true (Some "finished") (Some v))), w).
Proof. intros Hr Hv H1. apply (bootstrap_state_one w v Hr Hv H1). Qed.

Lemma one_component_finished_witness :
  bootstrap_state (world_of (PyStr "abc123"))
  = (Returns (Some (mkBootstrapState true (Some "finished") (Some "abc123"))),
     world_of (PyStr "abc123")).
Proof.
  apply (one_component_finished (world_of (PyStr "abc123")) "abc123").
  - vm_compute. reflexivity.
  - discriminate.
  - vm_compute. reflexivity.
Defined.

(** C4: on a register value of exactly two components, such as
    ["signing-abc123"], [bootstrap_state] returns the intermediate view:
    not bootstrapped, state the first component, task id the second. *)
Theorem two_components_intermediate (w : World) (v : string) :
  register w = PyStr v ->
  length (split DASH v) = 2 ->
  exists p t,
    split DASH v = [p; t]
    /\ bootstrap_state w
       = (Returns (Some (mkBootstrapState false (Some p) (Some t))), w).
Proof.
  intros Hr H2.
  destruct (split DASH v) as [|p [|t [|? ?]]] eqn:Hs; try discriminate H2.
  exists p, t. split; [reflexivity|].
  apply (bootstrap_state_two w v p t Hr Hs).
Qed.

Lemma two_components_intermediate_witness :
  exists p t,
    split DASH "signing-abc123" = [p; t]
    /\ bootstrap_state (world_of (PyStr "signing-abc123"))
       = (Returns (Some (mkBootstrapState false (Some p) (Some t))),
          world_of (PyStr "signing-abc123")).
Proof.
  apply (two_components_intermediate (world_of (PyStr "signing-abc123"))).
  - vm_compute. reflexivity.
  - vm_compute. reflexivity.
Defined.

(** C5: whatever the register held, [release_bootstrap_lock] followed by
    [bootstrap_state] yields the absent view: not bootstrapped, no state,
    no task id. *)
Theorem release_then_absent (w : World) :
  fst ((release_bootstrap_lock ;;; bootstrap_state) w) = Returns (Some ABSENT).
Proof.
  rewrite then_release_bootstrap_lock.
  rewrite bootstrap_state_none; [reflexivity|].
  apply register_release_bootstrap_lock.
Qed.

(** C6, as stated, fails on the register ["abc123"]: the view is
    bootstrapped and its state is ["finished"], not null. *)
Lemma state_null_when_bootstrapped_counterexample :
  fst (bootstrap_state (world_of (PyStr "abc123")))
  = Returns (Some (mkBootstrapState true (Some "finished") (Some "abc123")))
  /\ ~ state_null_when_bootstrapped (world_of (PyStr "abc123")).
Proof.
  assert (H : fst (bootstrap_state (world_of (PyStr "abc123")))
              = Returns (Some (mkBootstrapState true (Some "finished")
                                 (Some "abc123")))).
  { vm_compute. reflexivity. }
  split; [exact H|].
  intros Hc. specialize (Hc _ H eq_refl). discriminate Hc.
Qed.

(** C6, amended: in every view [bootstrap_state] returns, the state is
    ["finished"] whenever the view is bootstrapped, null when the register
    is absent or empty (when [get_fresh] gives [None] for it), and
    otherwise the phase name, that is the first component of the register
    value. *)
Theorem state_field_of_view (w : World) (b : BootstrapState) :
  fst (bootstrap_state w) = Returns (Some b) ->
  (bootstrap b = true -> state b = Some "finished")
  /\ (truthy (register w) = false -> state b = None)
  /\ (bootstrap b = false ->
      forall v, register w = PyStr v -> v <> "" ->
                state b = split DASH v !! 0).
Proof.
  intros H.
  destruct (bootstrap_state_returns w b H)
    as [[Hr ->] | [(v & Hr & Hv & H1 & ->) | (v & p & t & Hr & H2 & ->)]]; simpl.
  - split; [discriminate|]. split; [reflexivity|].
    intros _ v Hv Hne. rewrite Hv in Hr. simpl in Hr.
    destruct (String.eqb_spec v ""); [contradiction | discriminate Hr].
  - split; [reflexivity|]. split; [|discriminate].
    rewrite Hr. simpl. destruct (String.eqb_spec v ""); [contradiction | discriminate].
  - assert (Hv : v <> "") by (intros ->; discriminate H2).
    split; [discriminate|]. split.
    + rewrite Hr. simpl.
      destruct (String.eqb_spec v ""); [contradiction | discriminate].
    + intros _ v' Hv' _. assert (v' = v) as -> by congruence.
      rewrite H2. reflexivity.
Qed.

Lemma state_field_of_view_witness :
  state (mkBootstrapState false (Some "signing") (Some "abc123"))
  = split DASH "signing-abc123" !! 0.
Proof.
  destruct (state_field_of_view (world_of (PyStr "signing-abc123"))
              (mkBootstrapState false (Some "signing") (Some "abc123")))
    as (_ & _ & H).
  - vm_compute. reflexivity.
  - apply H; [reflexivity | vm_compute; reflexivity | discriminate].
Defined.




(** C8: a status query without a task id never raises; for every state
    of the status store of the execution engine it answers [PENDING] with
    no result and changes nothing. *)
Theorem get_without_task_id (w : World) :
  api_tasks.get (api_tasks.mkGetParameters None) w
  = (Returns (tasks.mkResponse PENDING None), w).
Proof. reflexivity. Qed.

(** C9: in every view [bootstrap_state] returns, the state is [None]
    exactly when the task id is [None], and a bootstrapped view has state
    ["finished"] and the whole register value as its task id. *)
Theorem view_invariant (w : World) (b : BootstrapState) :
  fst (bootstrap_state w) = Returns (Some b) ->
  (state b = None <-> task_id b = None)
  /\ (bootstrap b = true ->
      state b = Some "finished"
      /\ exists v, register w = PyStr v /\ task_id b = Some v).
Proof.
  intros H.
  destruct (bootstrap_state_returns w b H)
    as [[Hr ->] | [(v & Hr & Hv & H1 & ->) | (v & p & t & Hr & H2 & ->)]]; simpl.
  - split; [tauto | discriminate].
  - split; [split; discriminate|]. intros _. split; [reflexivity|].
    exists v. split; [exact Hr | reflexivity].
  - split; [split; discriminate | discriminate].
Qed.

Lemma view_invariant_witness :
  state (mkBootstrapState true (Some "finished") (Some "abc123"))
  = Some "finished"
  /\ exists v, register (world_of (PyStr "abc123")) = PyStr v
               /\ task_id (mkBootstrapState true (Some "finished") (Some "abc123"))
                  = Some v.
Proof.
  destruct (view_invariant (world_of (PyStr "abc123"))
              (mkBootstrapState true (Some "finished") (Some "abc123")))
    as (_ & H).
  - vm_compute. reflexivity.
  - apply H. reflexivity.
Defined.

(** C10: what this module writes decodes without ambiguity.  A task id
    of [get_task_id] is 32 hexadecimal digits and holds no delimiter, so
    [pre_lock_bootstrap] of it stores a value of exactly two components,
    which [bootstrap_state] reads back as phase ["pre"] of that task; and
    [release_bootstrap_lock] stores [None]. *)
Theorem written_values_decode (urandom : Z) (w : World) :
  String.length (get_task_id urandom) = 32
  /\ string_forall is_hex_digit (get_task_id urandom) = true
  /\ no_sep DASH (get_task_id urandom) = true
  /\ settings_repository (snd (pre_lock_bootstrap (get_task_id urandom) w))
       !! BOOTSTRAP
     = Some (PyStr ("pre-" +:+ get_task_id urandom))
  /\ split DASH ("pre-" +:+ get_task_id urandom)
     = ["pre"; get_task_id urandom]
  /\ fst ((pre_lock_bootstrap (get_task_id urandom) ;;; bootstrap_state) w)
     = Returns (Some (mkBootstrapState false (Some "pre")
                        (Some (get_task_id urandom))))
  /\ settings_repository (snd (release_bootstrap_lock w)) !! BOOTSTRAP
     = Some PyNone.
Proof.
  assert (Hhex : string_forall is_hex_digit (get_task_id urandom) = true).
  { rewrite get_task_id_digits. apply hex_digits_are_hex. }
  pose proof (hex_no_sep _ Hhex) as Hsep.
  split; [rewrite get_task_id_digits; apply hex_digits_length|].
  split; [exact Hhex|]. split; [exact Hsep|].
  split; [apply stored_pre_lock_bootstrap|].
  split; [apply split_pre, Hsep|].
  split; [apply bootstrap_state_after_pre_lock, Hsep|].
  apply stored_release_bootstrap_lock.
Qed.

(** ** More on [split]: the components rebuild the string *)

Section SplitJoin.

Variable sep : ascii.

Lemma join_split (s : string) : join sep (split sep s) = s.
Proof.
  induction s as [|c rest IH]; [reflexivity|]. simpl.
  pose proof (split_not_nil sep rest) as Hn.
  destruct (Ascii.eqb_spec c sep) as [->|Hc].
  - destruct (split sep rest) as [|hd tl] eqn:Hs; [congruence|].
    change (join sep (EmptyString :: hd :: tl))
      with (String sep (join sep (hd :: tl))).
    rewrite IH. reflexivity.
  - destruct (split sep rest) as [|hd tl] eqn:Hs; [congruence|].
    rewrite <- IH. destruct tl; reflexivity.
Qed.

Lemma split_components (s : string) :
  Forall (fun x => no_sep sep x = true) (split sep s).
Proof.
  induction s as [|c rest IH]; simpl.
  - constructor; [reflexivity | constructor].
  - destruct (Ascii.eqb c sep) eqn:Hc.
    + constructor; [reflexivity | exact IH].
    + pose proof (split_not_nil sep rest) as Hn.
      destruct (split sep rest) as [|hd tl]; [congruence|].
      inversion IH as [|? ? Hhd Htl]; subst.
      constructor; [simpl; rewrite Hc, Hhd; reflexivity | exact Htl].
Qed.

(** A string that holds the separator has at least two components. *)
Lemma split_with_sep (s : string) :
  no_sep sep s = false -> 2 <= length (split sep s).
Proof.
  intros H. pose proof (split_not_nil sep s) as Hn.
  pose proof (split_one_no_sep sep s) as H1.
  destruct (split sep s) as [|a [|b l]]; simpl in *; [congruence | | lia].
  rewrite H1 in H by reflexivity. discriminate H.
Qed.

End SplitJoin.

(** ** What [bootstrap_state] does on every register *)

(** X1: [bootstrap_state] only reads.  Whether it returns a view, returns
    [None] or raises, the settings, the task results and the log are what
    they were before the call. *)
Theorem bootstrap_state_read_only (w : World) :
  snd (bootstrap_state w) = w.
Proof.
  rewrite bootstrap_state_run.
  destruct (fresh_register w) as [|v|z|c]; try reflexivity.
  destruct (Nat.eqb (length (split DASH v)) 1); [reflexivity|].
  destruct (Nat.eqb (length (split DASH v)) 2); [|reflexivity].
  destruct (split DASH v) as [|a [|b [|c l]]]; reflexivity.
Qed.




(** X3: [bootstrap_state] runs off its end, returning [None] in place of
    a view, exactly when the register holds a string of more than two
    components, that is one with two delimiters or more. *)
Theorem bootstrap_state_no_view (w : World) :
  fst (bootstrap_state w) = Returns None
  <-> exists v, register w = PyStr v /\ 2 < length (split DASH v).
Proof.
  split.
  - rewrite bootstrap_state_run.
    destruct (fresh_register_cases w) as [[Hf ->] | [Ht ->]]; [discriminate|].
    destruct (register w) as [|v|z|c] eqn:Hr; simpl; try discriminate.
    intros H. exists v. split; [reflexivity|].
    pose proof (split_not_nil DASH v) as Hne.
    destruct (Nat.eqb_spec (length (split DASH v)) 1) as [E1|N1];
      [discriminate H|].
    destruct (Nat.eqb_spec (length (split DASH v)) 2) as [E2|N2].
    + destruct (split DASH v) as [|a [|b [|c l]]]; discriminate.
    + destruct (split DASH v) as [|a [|b [|c l]]]; simpl in *;
        try congruence; lia.
  - intros (v & Hr & Hl). rewrite (bootstrap_state_more w v Hr Hl). reflexivity.
Qed.

Lemma bootstrap_state_no_view_witness :
  fst (bootstrap_state (world_of (PyStr "pre-abc-123"))) = Returns None.
Proof.
  apply (proj2 (bootstrap_state_no_view (world_of (PyStr "pre-abc-123")))).
  exists "pre-abc-123". split; [apply register_world_of | vm_compute; lia].
Defined.

(** Every view comes from one valid record, whose encoding is the
    register as [get_fresh] gives it. *)
Lemma bootstrap_state_record (w : World) (b : BootstrapState) :
  fst (bootstrap_state w) = Returns (Some b) ->
  exists r, valid r = true /\ encode r = fresh_register w /\ view r = b.
Proof.
  intros H.
  destruct (bootstrap_state_returns w b H)
    as [[Hr ->] | [(v & Hr & Hv & H1 & ->) | (v & p & t & Hr & H2 & ->)]].
  - exists Absent. rewrite (fresh_register_falsy w Hr). repeat split.
  - exists (Finished v). rewrite (fresh_register_str w v Hr Hv).
    split; [|split; reflexivity]. simpl.
    rewrite (split_one_no_sep DASH v H1).
    destruct (String.eqb_spec v ""); [contradiction | reflexivity].
  - assert (Hv : v <> "") by (intros ->; discriminate H2).
    exists (InProgress p t). rewrite (fresh_register_str w v Hr Hv).
    pose proof (split_components DASH v) as Hc. rewrite H2 in Hc.
    inversion Hc as [|? ? Hp Hc']; subst. inversion Hc' as [|? ? Ht _]; subst.
    split; [simpl; rewrite Hp, Ht; reflexivity|]. split; [|reflexivity].
    simpl. f_equal. rewrite <- (join_split DASH v), H2. reflexivity.
Qed.

(** X4: the decoding loses nothing of what it reads.  Every view
    [bootstrap_state] returns is the view of a record with no delimiter
    in its components, and the encoding of that record is the value
    [get_fresh] gave for the register: the register itself when it is a
    string that is not empty, and [None] when it is absent or false. *)
Theorem decode_encode_roundtrip (w : World) (b : BootstrapState) :
  fst (bootstrap_state w) = Returns (Some b) ->
  exists r, valid r = true
            /\ view r = b
            /\ fst (get_fresh BOOTSTRAP w) = Returns (encode r)
            /\ (forall v, register w = PyStr v -> v <> "" ->
                          encode r = PyStr v).
Proof.
  intros H. destruct (bootstrap_state_record w b H) as (r & Hv & He & Hb).
  exists r. split; [exact Hv|]. split; [exact Hb|]. split.
  - rewrite get_fresh_register, He. reflexivity.
  - intros v Hr Hne. rewrite He. apply (fresh_register_str w v Hr Hne).
Qed.

Lemma decode_encode_roundtrip_witness :
  exists r, valid r = true
            /\ view r = mkBootstrapState false (Some "signing") (Some "abc123")
            /\ encode r = PyStr "signing-abc123".
Proof.
  destruct (decode_encode_roundtrip (world_of (PyStr "signing-abc123"))
              (mkBootstrapState false (Some "signing") (Some "abc123")))
    as (r & Hv & Hb & _ & He).
  - vm_compute. reflexivity.
  - exists r. split; [exact Hv|]. split; [exact Hb|].
    apply He; [apply register_world_of | discriminate].
Defined.

Lemma view_inj (r1 r2 : BootstrapRecord) : view r1 = view r2 -> r1 = r2.
Proof. destruct r1, r2; simpl; intros H; congruence. Qed.

(** X5: two stores whose [BOOTSTRAP] fields hold strings that are not
    empty, and which [bootstrap_state] reads as the same view, hold the
    same string: no two such values share a view. *)
Theorem same_view_same_register (w1 w2 : World) (v1 v2 : string)
    (b : BootstrapState) :
  settings_repository w1 !! BOOTSTRAP = Some (PyStr v1) ->
  settings_repository w2 !! BOOTSTRAP = Some (PyStr v2) ->
  v1 <> "" ->
  v2 <> "" ->
  fst (bootstrap_state w1) = Returns (Some b) ->
  fst (bootstrap_state w2) = Returns (Some b) ->
  v1 = v2.
Proof.
  intros S1 S2 N1 N2 H1 H2.
  assert (R1 : register w1 = PyStr v1) by (unfold register; rewrite S1; reflexivity).
  assert (R2 : register w2 = PyStr v2) by (unfold register; rewrite S2; reflexivity).
  destruct (bootstrap_state_record w1 b H1) as (r1 & _ & E1 & V1).
  destruct (bootstrap_state_record w2 b H2) as (r2 & _ & E2 & V2).
  rewrite (fresh_register_str w1 v1 R1 N1) in E1.
  rewrite (fresh_register_str w2 v2 R2 N2) in E2.
  assert (r1 = r2) as -> by (apply view_inj; congruence).
  congruence.
Qed.

Lemma same_view_same_register_witness : "pre-abc123" = "pre-abc123".
Proof.
  apply (same_view_same_register
           (world_of (PyStr "pre-abc123"))
           (mkWorld {[ BOOTSTRAP := PyStr "pre-abc123"; "X" := PyInt 1 ]} ∅ ["m"])
           "pre-abc123" "pre-abc123"
           (mkBootstrapState false (Some "pre") (Some "abc123")));
    try discriminate; vm_compute; reflexivity.
Defined.

(** ** How the writers compose *)

(** X6: the last writer wins on the register.  After a pre-lock or a
    release that follows another pre-lock or release, the [BOOTSTRAP]
    field holds what the last one wrote, and [bootstrap_state] answers as
    it does after the last one alone: a second pre-lock silently replaces
    the task id of the first. *)
Theorem last_writer_wins (t1 t2 : string) (w : World) :
  settings_repository
    (snd ((pre_lock_bootstrap t1 ;;; pre_lock_bootstrap t2) w)) !! BOOTSTRAP
  = Some (PyStr ("pre-" +:+ t2))
  /\ settings_repository
       (snd ((release_bootstrap_lock ;;; pre_lock_bootstrap t2) w)) !! BOOTSTRAP
     = Some (PyStr ("pre-" +:+ t2))
  /\ settings_repository
       (snd ((pre_lock_bootstrap t1 ;;; release_bootstrap_lock) w)) !! BOOTSTRAP
     = Some PyNone
  /\ fst ((pre_lock_bootstrap t1 ;;; pre_lock_bootstrap t2 ;;; bootstrap_state) w)
     = fst ((pre_lock_bootstrap t2 ;;; bootstrap_state) w)
  /\ fst ((pre_lock_bootstrap t1 ;;; release_bootstrap_lock ;;; bootstrap_state) w)
     = Returns (Some ABSENT).
Proof.
  rewrite !then_pre_lock_bootstrap, !then_release_bootstrap_lock.
  split; [apply stored_pre_lock_bootstrap|].
  split; [apply stored_pre_lock_bootstrap|].
  split; [apply stored_release_bootstrap_lock|].
  split.
  - apply bootstrap_state_of_register.
    rewrite !register_pre_lock_bootstrap. reflexivity.
  - rewrite bootstrap_state_none; [reflexivity|].
    apply register_release_bootstrap_lock.
Qed.

(** X7: [pre_lock_bootstrap] accepts any task id, but only one without
    the delimiter can be read back.  After the pre-lock of [t],
    [bootstrap_state] returns the view (not bootstrapped, ["pre"], [t])
    when [t] holds no ["-"], and returns [None] in place of a view when
    it holds one. *)
Theorem pre_lock_then_state (t : string) (w : World) :
  fst ((pre_lock_bootstrap t ;;; bootstrap_state) w)
  = if no_sep DASH t
    then Returns (Some (mkBootstrapState false (Some "pre") (Some t)))
    else Returns None.
Proof.
  destruct (no_sep DASH t) eqn:Ht.
  - apply bootstrap_state_after_pre_lock, Ht.
  - rewrite then_pre_lock_bootstrap.
    rewrite (bootstrap_state_more _ ("pre-" +:+ t));
      [reflexivity | apply register_pre_lock_bootstrap |].
    change ("pre-" +:+ t) with ("pre" +:+ String DASH t).
    rewrite split_app_sep by reflexivity.
    pose proof (split_with_sep DASH t Ht). simpl. lia.
Qed.

(** X9: only the [BOOTSTRAP] field is looked at.  Two worlds whose
    settings agree on that field get the same answer from
    [bootstrap_state], whatever their other settings, task results and
    log records are. *)
Theorem bootstrap_state_only_reads_register (w1 w2 : World) :
  settings_repository w1 !! BOOTSTRAP = settings_repository w2 !! BOOTSTRAP ->
  fst (bootstrap_state w1) = fst (bootstrap_state w2).
Proof.
  intros E. apply bootstrap_state_of_register. unfold register.
  rewrite E. reflexivity.
Qed.

Lemma bootstrap_state_only_reads_register_witness :
  fst (bootstrap_state (world_of (PyStr "pre-abc123")))
  = fst (bootstrap_state
           (mkWorld {[ BOOTSTRAP := PyStr "pre-abc123"; "X" := PyInt 1 ]}
              {[ "abc123" := (RUNNING, None) ]} ["m"])).
Proof.
  apply (bootstrap_state_only_reads_register
           (world_of (PyStr "pre-abc123"))
           (mkWorld {[ BOOTSTRAP := PyStr "pre-abc123"; "X" := PyInt 1 ]}
              {[ "abc123" := (RUNNING, None) ]} ["m"])).
  vm_compute. reflexivity.
Defined.

(** X10: the edges of the register.  A register that was never written
    (no [BOOTSTRAP] field) and one that holds a false value ([None], the
    empty string, [0] or [False]) are all read as the absent view. *)
Theorem unwritten_and_empty_register (w : World) :
  (settings_repository w !! BOOTSTRAP = None ->
   bootstrap_state w = (Returns (Some ABSENT), w))
  /\ (forall v, settings_repository w !! BOOTSTRAP = Some v ->
                truthy v = false ->
                bootstrap_state w = (Returns (Some ABSENT), w)).
Proof.
  split.
  - intros H. apply bootstrap_state_none. unfold register. rewrite H. reflexivity.
  - intros v H Hv. apply bootstrap_state_falsy. unfold register. rewrite H.
    exact Hv.
Qed.

Lemma unwritten_and_empty_register_witness :
  bootstrap_state (mkWorld ∅ ∅ []) = (Returns (Some ABSENT), mkWorld ∅ ∅ [])
  /\ bootstrap_state (world_of (PyStr ""))
     = (Returns (Some ABSENT), world_of (PyStr ""))
  /\ bootstrap_state (world_of (PyInt 0))
     = (Returns (Some ABSENT), world_of (PyInt 0)).
Proof.
  split; [|split].
  - apply (unwritten_and_empty_register (mkWorld ∅ ∅ [])). reflexivity.
  - apply (proj2 (unwritten_and_empty_register (world_of (PyStr ""))) (PyStr ""));
      vm_compute; reflexivity.
  - apply (proj2 (unwritten_and_empty_register (world_of (PyInt 0))) (PyInt 0));
      vm_compute; reflexivity.
Defined.

(** X11: the task stub [repository_metadata] returns [True] for every
    action and payload, adds one record to the log, the message with the
    action in it, and touches nothing else: the settings and the task
    results are unchanged and [bootstrap_state] answers after it as it
    did before. *)
Theorem repository_metadata_effect (action : string) (payload : value) (w : World) :
  fst (repository_metadata action payload w) = Returns true
  /\ log_records (snd (repository_metadata action payload w))
     = log_records w ++ ["New tasks action submitted " +:+ action]
  /\ settings_repository (snd (repository_metadata action payload w))
     = settings_repository w
  /\ celery_results (snd (repository_metadata action payload w))
     = celery_results w
  /\ fst ((repository_metadata action payload ;;; bootstrap_state) w)
     = fst (bootstrap_state w).
Proof.
  repeat split.
  change ((repository_metadata action payload ;;; bootstrap_state) w)
    with (bootstrap_state (snd (repository_metadata action payload w))).
  apply bootstrap_state_of_register. reflexivity.
Qed.

(** ** The configuration built at import *)

Section SplitStr.

Variable c0 : ascii.
Variable sep' : string.

Local Abbreviation sep := (String c0 sep').

Lemma prefix_app (a h : string) : String.prefix a (a +:+ h) = true.
Proof.
  induction a as [|c a IH]; simpl; [destruct h; reflexivity|].
  destruct (ascii_dec c c) as [_|Hne]; [exact IH | congruence].
Qed.

Lemma split_str_from_not_nil (s0 : string) (k : nat) (s : string) :
  split_str_from s0 k s <> [].
Proof.
  revert k. induction s as [|c rest IH]; intros k; [discriminate|].
  cbn [split_str_from]. destruct k as [|k]; [|apply IH].
  destruct (String.prefix s0 (String c rest)); [discriminate|].
  destruct (split_str_from s0 0 rest); discriminate.
Qed.

Lemma split_str_from_skip (s0 x h : string) :
  split_str_from s0 (String.length x) (x +:+ h) = split_str_from s0 0 h.
Proof. induction x as [|c x IH]; [reflexivity | exact IH]. Qed.

(** A leading separator gives an empty first component. *)
Lemma split_str_leading (h : string) :
  split_str sep (sep +:+ h) = EmptyString :: split_str sep h.
Proof.
  unfold split_str.
  change (String c0 sep' +:+ h) with (String c0 (sep' +:+ h)).
  cbn [split_str_from].
  change (String c0 (sep' +:+ h)) with (String c0 sep' +:+ h).
  rewrite prefix_app. f_equal.
  replace (String.length (String c0 sep') - 1) with (String.length sep')
    by (simpl; lia).
  apply split_str_from_skip.
Qed.

(** Without the separator there is one component. *)
Lemma split_str_absent (s : string) :
  contains sep s = false -> split_str sep s = [s].
Proof.
  unfold split_str. induction s as [|c rest IH]; [reflexivity|].
  cbn [contains split_str_from]. intros H.
  apply orb_false_iff in H as [Hp Hrest].
  rewrite Hp, (IH Hrest). reflexivity.
Qed.

(** With the separator there are two components or more. *)
Lemma split_str_present (s : string) :
  contains sep s = true -> 2 <= length (split_str sep s).
Proof.
  unfold split_str. induction s as [|c rest IH]; [discriminate|].
  cbn [contains split_str_from]. intros H.
  destruct (String.prefix sep (String c rest)) eqn:Hp.
  - pose proof (split_str_from_not_nil sep (String.length sep - 1) rest) as Hn.
    destruct (split_str_from sep (String.length sep - 1) rest);
      [congruence | simpl; lia].
  - simpl in H. specialize (IH H).
    destruct (split_str_from sep 0 rest); simpl in *; lia.
Qed.

End SplitStr.

(** X12: with [REDIS_SERVER] set to ["redis://"] followed by a host that
    does not hold ["redis://"] again, and [BROKER_SERVER] set, the import
    succeeds; the settings store connects to that host, and the result
    backend of Celery is the URL of the same host and the same port,
    followed by the number of the result database. *)
Theorem module_init_same_server
    (settings : gmap string value) (h : string) (broker : value) :
  settings !! "REDIS_SERVER" = Some (PyStr (REDIS_SCHEME +:+ h)) ->
  contains REDIS_SCHEME h = false ->
  settings !! "BROKER_SERVER" = Some broker ->
  exists c,
    module_init settings = Returns c
    /\ redis_host c = h
    /\ broker_url c = broker
    /\ decode_responses c = true
    /\ result_backend c
       = REDIS_SCHEME +:+ redis_host c +:+ ":" +:+ format_value (redis_port c)
         +:+ "/"
         +:+ format_value (settings_get settings "REDIS_SERVER_DB_RESULT" (PyInt 0)).
Proof.
  intros Hs Hh Hb. unfold module_init, getattr. rewrite Hs, Hb.
  change "redis://" with REDIS_SCHEME.
  unfold REDIS_SCHEME at 1. rewrite split_str_leading.
  fold REDIS_SCHEME. unfold REDIS_SCHEME at 1.
  rewrite (split_str_absent _ _ h Hh). cbn [lookup list_lookup].
  eexists. split; [reflexivity|]. cbn [redis_host broker_url decode_responses
    result_backend redis_port].
  split; [reflexivity|]. split; [reflexivity|]. split; reflexivity.
Qed.

Lemma module_init_same_server_witness :
  exists c,
    module_init {[ "REDIS_SERVER" := PyStr "redis://redis";
                   "BROKER_SERVER" := PyStr "amqp://mq" ]}
    = Returns c
    /\ redis_host c = "redis"
    /\ result_backend c = "redis://redis:6379/0".
Proof.
  destruct (module_init_same_server
              {[ "REDIS_SERVER" := PyStr "redis://redis";
                 "BROKER_SERVER" := PyStr "amqp://mq" ]}
              "redis" (PyStr "amqp://mq"))
    as (c & Hc & Hh & _ & _ & Hr).
  - vm_compute. reflexivity.
  - vm_compute. reflexivity.
  - vm_compute. reflexivity.
  - exists c. split; [exact Hc|]. split; [exact Hh|].
    vm_compute in Hc. injection Hc as <-. reflexivity.
Defined.

Lemma host_absent (s : string) :
  contains "redis://" s = false -> split_str "redis://" s !! 1 = None.
Proof. intros H. rewrite (split_str_absent _ _ s H). reflexivity. Qed.

Lemma host_present (s : string) :
  contains "redis://" s = true ->
  exists host, split_str "redis://" s !! 1 = Some host.
Proof.
  intros H. pose proof (split_str_present _ _ s H) as Hl.
  destruct (split_str "redis://" s) as [|a [|b l]]; simpl in Hl; try lia.
  exists b. reflexivity.
Qed.

(** X13: the import succeeds exactly when [REDIS_SERVER] is a string that
    holds ["redis://"] and [BROKER_SERVER] is set; the port and the
    database numbers are never needed. *)
Theorem module_init_succeeds (settings : gmap string value) :
  (exists c, module_init settings = Returns c)
  <-> (exists s, settings !! "REDIS_SERVER" = Some (PyStr s)
                 /\ contains REDIS_SCHEME s = true)
      /\ is_Some (settings !! "BROKER_SERVER").
Proof.
  unfold module_init, getattr, REDIS_SCHEME.
  destruct (settings !! "REDIS_SERVER") as [[|s|z|b]|] eqn:Hs;
    try (split; [intros [c Hc]; discriminate Hc
                | intros [(s' & Hs' & _) _]; discriminate Hs']).
  destruct (contains "redis://" s) eqn:Hc.
  - destruct (host_present s Hc) as (host & ->).
    destruct (settings !! "BROKER_SERVER") as [broker|] eqn:Hb.
    + split; [|eauto]. intros _. split; [exists s; split; [reflexivity | exact Hc] | eauto].
    + split; [intros [c Hc']; discriminate Hc' | intros [_ [x Hx]]; discriminate Hx].
  - rewrite (host_absent s Hc).
    split; [intros [c Hc']; discriminate Hc'|].
    intros [(s' & [= <-] & Hs') _]. congruence.
Qed.

Lemma module_init_succeeds_witness :
  exists c,
    module_init {[ "REDIS_SERVER" := PyStr "redis://redis";
                   "BROKER_SERVER" := PyStr "amqp://mq" ]}
    = Returns c.
Proof.
  apply (proj2 (module_init_succeeds _)). split.
  - exists "redis://redis". split; vm_compute; reflexivity.
  - exists (PyStr "amqp://mq"). vm_compute. reflexivity.
Defined.

(** X14: the import stops with [IndexError] exactly when [REDIS_SERVER]
    is a string without ["redis://"] in it, such as a bare host name;
    every other failure of the import is an [AttributeError]. *)
Theorem module_init_raises (settings : gmap string value) (e : exn) :
  module_init settings = Raises e ->
  (e = IndexError
   <-> exists s, settings !! "REDIS_SERVER" = Some (PyStr s)
                 /\ contains REDIS_SCHEME s = false)
  /\ (e = IndexError \/ e = AttributeError).
Proof.
  unfold module_init, getattr, REDIS_SCHEME.
  destruct (settings !! "REDIS_SERVER") as [[|s|z|b]|] eqn:Hs;
    try (intros [= <-]; split; [|right; reflexivity];
         split; [discriminate | intros (s' & Hs' & _); discriminate Hs']).
  destruct (contains "redis://" s) eqn:Hc.
  - destruct (host_present s Hc) as (host & ->).
    destruct (settings !! "BROKER_SERVER") as [broker|]; [discriminate|].
    intros [= <-]. split; [|right; reflexivity].
    split; [discriminate|]. intros (s' & [= <-] & Hs'). congruence.
  - rewrite (host_absent s Hc). intros [= <-]. split; [|left; reflexivity].
    split; [|reflexivity]. intros _. exists s. split; [reflexivity | exact Hc].
Qed.

Lemma module_init_raises_witness :
  exists s, ({[ "REDIS_SERVER" := PyStr "localhost" ]} : gmap string value)
              !! "REDIS_SERVER" = Some (PyStr s)
            /\ contains REDIS_SCHEME s = false.
Proof.
  assert (H : module_init
                ({[ "REDIS_SERVER" := PyStr "localhost" ]} : gmap string value)
              = Raises IndexError) by (vm_compute; reflexivity).
  apply (proj1 (proj1 (module_init_raises _ _ H))). reflexivity.
Defined.

(** X15: the defaults of the import.  When the port and the two database
    numbers are not set, the settings store uses port 6379 and database
    1, and the result backend is the server URL followed by [:6379/0]:
    the register and the task results are kept in different databases of
    one server. *)
Theorem module_init_defaults_used (settings : gmap string value) (c : Config) :
  module_init settings = Returns c ->
  settings !! "REDIS_SERVER_PORT" = None ->
  settings !! "REDIS_SERVER_DB_REPO_SETTINGS" = None ->
  settings !! "REDIS_SERVER_DB_RESULT" = None ->
  redis_port c = PyInt 6379
  /\ redis_db c = PyInt 1
  /\ exists server, settings !! "REDIS_SERVER" = Some (PyStr server)
                    /\ result_backend c = server +:+ ":6379/0".
Proof.
  unfold module_init, getattr, settings_get. intros H Hp Hd Hr.
  rewrite Hp, Hd, Hr in H.
  destruct (settings !! "REDIS_SERVER") as [[|s|z|b]|]; try discriminate H.
  destruct (split_str "redis://" s !! 1) as [host|]; [|discriminate H].
  destruct (settings !! "BROKER_SERVER") as [broker|]; [|discriminate H].
  injection H as <-. cbn [redis_port redis_db result_backend].
  split; [reflexivity|]. split; [reflexivity|].
  exists s. split; reflexivity.
Qed.

Lemma module_init_defaults_used_witness :
  exists server,
    ({[ "REDIS_SERVER" := PyStr "redis://redis";
        "BROKER_SERVER" := PyStr "amqp://mq" ]} : gmap string value)
      !! "REDIS_SERVER" = Some (PyStr server)
    /\ "redis://redis:6379/0" = server +:+ ":6379/0".
Proof.
  destruct (module_init_defaults_used
              {[ "REDIS_SERVER" := PyStr "redis://redis";
                 "BROKER_SERVER" := PyStr "amqp://mq" ]}
              (mkConfig "redis" (PyInt 6379) (PyInt 1) true (PyStr "amqp://mq")
                 "redis://redis:6379/0"))
    as (_ & _ & H).
  - vm_compute. reflexivity.
  - vm_compute. reflexivity.
  - vm_compute. reflexivity.
  - vm_compute. reflexivity.
  - exact H.
Defined.
